(** * iterm2_dwim.editors.sublime: opening a file at a line in Sublime Text

    A shallow embedding of [Sublime.visit_file]
    (src/iterm2_dwim/editors/sublime.py) together with the parts of the
    Python runtime it calls: [re.sub] for the pattern of the source,
    the [%] string formatting operator, [str.join], and
    [subprocess.check_call].  *)

From Stdlib Require Import String Ascii List ZArith Lia Bool.
From Stdlib Require Import DecimalString.
From Stdlib Require DecimalPos DecimalZ.
Import ListNotations.

Local Open Scope string_scope.
Local Open Scope Z_scope.

Set Implicit Arguments.

(* ===================================================================== *)
(** ** Exceptions *)
(* ===================================================================== *)

(** The exceptions that can cross [visit_file]; [OtherError] stands for
    an exception of any class not listed. *)
Inductive exn : Type :=
| CalledProcessError (returncode : Z) (cmd : list string)
| TimeoutExpired (cmd : list string) (timeout : Z)
| OSError (errno : Z)
| TypeError
| ValueError
| OtherError (name : string).

Inductive result (A : Type) : Type :=
| Ok (a : A)
| Raise (e : exn).
Arguments Ok {A} a.
Arguments Raise {A} e.

(* ===================================================================== *)
(** ** Python values and [str()] *)
(* ===================================================================== *)

Module Py.

(** The values whose [str()] returns: integers (of either sign),
    strings, booleans, [None], and [Other text] for an object of any
    other type, whose [str()] is [text]. *)
Inductive value : Type :=
| Int (z : Z)
| Str (s : string)
| Bool (b : bool)
| None_
| Other (text : string).

(** What a caller can pass for [line]: the code formats it with [%s],
    so any object is accepted.  An object is a value, or it is one whose
    [str()] raises [e] (a [__str__] that fails; an integer beyond the
    digit limit of an interpreter that has one). *)
Inductive object : Type :=
| Val (v : value)
| Unprintable (e : exn).

(** [str(int)]: decimal digits, with a leading minus sign below zero. *)
Definition str_of_int (z : Z) : string :=
  NilZero.string_of_int (Z.to_int z).

(** [str(v)], which is what the [%s] directive applies to its argument. *)
Definition str (v : value) : string :=
  match v with
  | Int z => str_of_int z
  | Str s => s
  | Bool true => "True"
  | Bool false => "False"
  | None_ => "None"
  | Other text => text
  end.

(** [str(o)] on any object. *)
Definition str_obj (o : object) : result string :=
  match o with
  | Val v => Ok (str v)
  | Unprintable e => Raise e
  end.

(** The zero character, written ['\0'] in Python. *)
Definition NUL : ascii := "000"%char.

(** ['\0' in s]. *)
Fixpoint has_nul (s : string) : bool :=
  match s with
  | EmptyString => false
  | String c s' => Ascii.eqb c NUL || has_nul s'
  end.

(** The line feed character, written ['\n'] in Python. *)
Definition LF : ascii := "010"%char.

(** [sep.join(items)] on a list of strings. *)
Definition join (sep : string) (items : list string) : string :=
  String.concat sep items.

(** [s.endswith(suffix)]. *)
Fixpoint endswith (s suffix : string) : bool :=
  (s =? suffix)%string ||
  match s with
  | EmptyString => false
  | String _ s' => endswith s' suffix
  end.

(** The [%] operator, [fmt % args], for the directives [%s] and [%%],
    from left to right.  It raises what [str()] of an argument raises,
    [TypeError] for too few or too many arguments, and [ValueError] for
    a directive outside the model. *)
Fixpoint format (fmt : string) (args : list object) : result string :=
  match fmt with
  | EmptyString =>
      match args with
      | [] => Ok EmptyString
      | _ :: _ => Raise TypeError
      end
  | String "%" (String "s" rest) =>
      match args with
      | [] => Raise TypeError
      | a :: args' =>
          match str_obj a with
          | Raise e => Raise e
          | Ok text =>
              match format rest args' with
              | Ok out => Ok (text ++ out)
              | Raise e => Raise e
              end
          end
      end
  | String "%" (String "%" rest) =>
      match format rest args with
      | Ok out => Ok (String "%" out)
      | Raise e => Raise e
      end
  | String "%" _ => Raise ValueError
  | String c rest =>
      match format rest args with
      | Ok out => Ok (String c out)
      | Raise e => Raise e
      end
  end.

End Py.

(** A value is passed where an object is expected. *)
Coercion Py.Val : Py.value >-> Py.object.

(* ===================================================================== *)
(** ** Regular expressions: the fragment used by the source *)
(* ===================================================================== *)

Module Re.

(** A compiled pattern is a sequence of atoms.  The source's pattern
    ['\.pyc$'] needs two kinds: a literal character (an escaped dot is
    the character itself) and the anchor [$]. *)
Inductive atom : Type :=
| Lit (c : ascii)
| Dollar.

Definition pattern : Type := list atom.

(** [$] without [re.MULTILINE]: the position is the end of the string,
    or it is just before a line feed that is the last character. *)
Definition at_dollar (rest : string) : bool :=
  match rest with
  | EmptyString => true
  | String c EmptyString => Ascii.eqb c Py.LF
  | _ => false
  end.

(** [match_here p rest]: try to match [p] at the position whose
    remaining text is [rest]; the answer is the number of characters the
    match consumes. *)
Fixpoint match_here (p : pattern) (rest : string) : option nat :=
  match p with
  | [] => Some O
  | Dollar :: p' => if at_dollar rest then match_here p' rest else None
  | Lit c :: p' =>
      match rest with
      | EmptyString => None
      | String d rest' =>
          if Ascii.eqb c d
          then option_map S (match_here p' rest')
          else None
      end
  end.

(** The scan of [re.sub]: left to right, every non-overlapping match is
    replaced by [repl]; [skip] counts the characters of the last match
    that are still to be passed over. *)
Fixpoint sub_from (p : pattern) (repl : string) (skip : nat) (s : string)
  : string :=
  match skip with
  | S k =>
      match s with
      | EmptyString => EmptyString
      | String _ s' => sub_from p repl k s'
      end
  | O =>
      match match_here p s with
      | Some (S k) =>
          repl ++ match s with
                  | EmptyString => EmptyString
                  | String _ s' => sub_from p repl k s'
                  end
      | Some O =>
          repl ++ match s with
                  | EmptyString => EmptyString
                  | String c s' => String c (sub_from p repl O s')
                  end
      | None =>
          match s with
          | EmptyString => EmptyString
          | String c s' => String c (sub_from p repl O s')
          end
      end
  end.

(** [re.sub(p, repl, s)] with a replacement free of back-references. *)
Definition sub (p : pattern) (repl s : string) : string :=
  sub_from p repl O s.

End Re.

(** The pattern ['\.pyc$'] of the source, compiled. *)
Definition pyc_pattern : Re.pattern :=
  [Re.Lit "."; Re.Lit "p"; Re.Lit "y"; Re.Lit "c"; Re.Dollar].

(** The string of one line feed, ["\n"]. *)
Definition nl : string := String Py.LF EmptyString.

(** The atoms of a run of literal characters. *)
Fixpoint lits (s : string) : Re.pattern :=
  match s with
  | EmptyString => []
  | String c s' => Re.Lit c :: lits s'
  end.

(* ===================================================================== *)
(** ** Effects: exceptions, the process table and the event trace *)
(* ===================================================================== *)

(** What a started child process will do: run for [lifetime] units of
    time, then exit with [returncode]. *)
Record process : Type := Process {
  lifetime : Z;
  returncode : Z
}.

(** What [Popen] gets for an argument vector: the program starts, or
    the operating system cannot start it ([errno]), or the vector is
    rejected before the operating system is asked. *)
Inductive launch : Type :=
| Started (p : process)
| Failed (errno : Z)
| Rejected.

(** The environment of a call: what would come of each argument vector. *)
Record os : Type := OS { answer : list string -> launch }.

(** An argument that holds the zero character is never handed over:
    the vector is rejected, whatever the program would have done. *)
Definition run (w : os) (argv : list string) : launch :=
  if existsb Py.has_nul argv then Rejected else answer w argv.

Coercion run : os >-> Funclass.

(** The observable actions, in program order: a line handed to the
    logger, a call of [Popen] that requests the run of an argument
    vector, a wait for the exit of the child, and a kill of the child. *)
Inductive event : Type :=
| Log (msg : string)
| Spawn (args : list string)
| Wait (timeout : option Z)
| Kill.

(** A computation reads the operating system, emits events and either
    returns a value or raises. *)
Definition M (A : Type) : Type := os -> list event * result A.

Definition ret {A} (a : A) : M A := fun _ => ([], Ok a).

Definition raise {A} (e : exn) : M A := fun _ => ([], Raise e).

Definition emit (ev : event) : M unit := fun _ => ([ev], Ok tt).

Definition bind {A B} (m : M A) (k : A -> M B) : M B :=
  fun w =>
    match m w with
    | (t1, Ok a) =>
        match k a w with
        | (t2, r) => ((t1 ++ t2)%list, r)
        end
    | (t1, Raise e) => (t1, Raise e)
    end.

(** [try: m except: h(e)]. *)
Definition try_except {A} (m : M A) (h : exn -> M A) : M A :=
  fun w =>
    match m w with
    | (t1, Ok a) => (t1, Ok a)
    | (t1, Raise e) =>
        match h e w with
        | (t2, r) => ((t1 ++ t2)%list, r)
        end
    end.

Declare Scope eff_scope.
Delimit Scope eff_scope with eff.
Notation "x <- m ;; k" := (bind m (fun x => k))
  (at level 100, m at next level, right associativity) : eff_scope.
Notation "m ;; k" := (bind m (fun _ => k))
  (at level 100, right associativity) : eff_scope.
Local Open Scope eff_scope.

Definition trace {A} (r : list event * result A) : list event := fst r.
Definition outcome {A} (r : list event * result A) : result A := snd r.

(** The messages logged, the argument vectors spawned and the timeouts
    waited with, each in order of occurrence. *)
Fixpoint logged (t : list event) : list string :=
  match t with
  | [] => []
  | Log msg :: t' => msg :: logged t'
  | _ :: t' => logged t'
  end.

Fixpoint spawned (t : list event) : list (list string) :=
  match t with
  | [] => []
  | Spawn args :: t' => args :: spawned t'
  | _ :: t' => spawned t'
  end.

Fixpoint timeouts (t : list event) : list (option Z) :=
  match t with
  | [] => []
  | Wait timeout :: t' => timeout :: timeouts t'
  | _ :: t' => timeouts t'
  end.

(* ===================================================================== *)
(** ** The [subprocess] module *)
(* ===================================================================== *)

Module Subprocess.

(** A [Popen] object: the arguments it was made from and the process. *)
Record popen : Type := Popen_ {
  args : list string;
  proc : process
}.

(** [Popen(args)]: ask for the run of [args]; [OSError] when the
    program cannot be started, [ValueError] ("embedded null byte") when
    an argument holds the zero character. *)
Definition Popen (argv : list string) : M popen :=
  fun w =>
    match w argv with
    | Started p => ([Spawn argv], Ok (Popen_ argv p))
    | Failed errno => ([Spawn argv], Raise (OSError errno))
    | Rejected => ([Spawn argv], Raise ValueError)
    end.

(** [p.wait(timeout)]: block until the process exits and return its
    exit status; with a timeout, [TimeoutExpired] when the process
    outlives it. *)
Definition wait (p : popen) (timeout : option Z) : M Z :=
  match timeout with
  | None => emit (Wait None) ;; ret (returncode (proc p))
  | Some t =>
      emit (Wait (Some t)) ;;
      if lifetime (proc p) <=? t
      then ret (returncode (proc p))
      else raise (TimeoutExpired (args p) t)
  end.

Definition kill (p : popen) : M unit := emit Kill.

(** [call(args, timeout=None)]:
    [with Popen(args) as p: try: return p.wait(timeout=timeout)
     except: p.kill(); raise]. *)
Definition call (argv : list string) (timeout : option Z) : M Z :=
  p <- Popen argv ;;
  try_except (wait p timeout) (fun e => kill p ;; raise e).

(** [check_call(args, timeout=None)]:
    [retcode = call(args); if retcode: raise CalledProcessError(retcode,
    args); return 0]. *)
Definition check_call (argv : list string) (timeout : option Z) : M Z :=
  retcode <- call argv timeout ;;
  if retcode =? 0
  then ret 0
  else raise (CalledProcessError retcode argv).

End Subprocess.

(* ===================================================================== *)
(** ** The editor *)
(* ===================================================================== *)

(** Modelled from the spec: [iterm2_dwim.logger.log] is not among the
    sources; the spec describes it as a single-argument logging call
    accepting a string.  One call emits one log line. *)
Definition log (msg : string) : M unit := emit (Log msg).

(** Modelled from the spec: [BaseEditor] is not among the sources; the
    spec describes [executable] as a configured string naming the editor
    binary. *)
Record Sublime : Type := { executable : string }.

(** [Sublime.visit_file(self, path, line)].  The source calls
    [subprocess.check_call(cmd)] with no keyword, so [timeout] has its
    default [None]; the value [check_call] returns is dropped and the
    method returns [None]. *)
Definition visit_file (self : Sublime) (path : string) (line : Py.object)
  : M unit :=
  let path := Re.sub pyc_pattern ".py" path in
  match Py.format "%s:%s" [Py.Val (Py.Str path); line] with
  | Raise e => raise e
  | Ok arg =>
      let cmd := [executable self; arg] in
      log (Py.join " " cmd) ;;
      _ <- Subprocess.check_call cmd None ;;
      ret tt
  end.

(** Two fixtures for the examples: an editor and operating systems in
    which every program exits with a given status, or none starts. *)
Definition subl : Sublime := {| executable := "subl" |}.

Definition exits (code : Z) : os := OS (fun _ => Started (Process 3 code)).

Definition enoent : os := OS (fun _ => Failed 2).

(* ===================================================================== *)
(** ** Facts about strings *)
(* ===================================================================== *)

Lemma append_nil_r (s : string) : s ++ "" = s.
Proof. induction s as [|c s IH]; simpl; [reflexivity | now rewrite IH]. Qed.

Lemma append_assoc (s t u : string) : (s ++ t) ++ u = s ++ (t ++ u).
Proof. induction s as [|c s IH]; simpl; [reflexivity | now rewrite IH]. Qed.

Lemma length_append (s t : string) :
  String.length (s ++ t) = (String.length s + String.length t)%nat.
Proof. induction s as [|c s IH]; simpl; [reflexivity | now rewrite IH]. Qed.

(** Two strings of different lengths differ. *)
Ltac by_length :=
  let H := fresh in
  intro H; apply (f_equal String.length) in H;
  repeat (rewrite length_append in H || simpl in H); lia.

(** [endswith] decides "is of the form [stem ++ suffix]". *)
Lemma endswith_spec (s suffix : string) :
  Py.endswith s suffix = true <-> exists stem, s = stem ++ suffix.
Proof.
  split.
  - induction s as [|c s IH]; cbn [Py.endswith]; intros H.
    + rewrite orb_false_r in H. apply String.eqb_eq in H.
      exists "". exact H.
    + apply orb_true_iff in H. destruct H as [H|H].
      * apply String.eqb_eq in H. exists "". exact H.
      * destruct (IH H) as [stem ->]. exists (String c stem). reflexivity.
  - intros [stem ->]. induction stem as [|c stem IH].
    + destruct suffix; simpl; rewrite ?Ascii.eqb_refl, ?String.eqb_refl;
        reflexivity.
    + cbn [append Py.endswith]. rewrite IH. apply orb_true_r.
Qed.

Lemma endswith_cons_false (c : ascii) (s suffix : string) :
  Py.endswith (String c s) suffix = false ->
  String c s <> suffix /\ Py.endswith s suffix = false.
Proof.
  cbn [Py.endswith]. intros H. apply orb_false_iff in H.
  destruct H as [H1 H2].
  split; [now apply String.eqb_neq | exact H2].
Qed.

(* ===================================================================== *)
(** ** Facts about the pattern *)
(* ===================================================================== *)

Lemma at_dollar_inv (rest : string) :
  Re.at_dollar rest = true -> rest = "" \/ rest = nl.
Proof.
  destruct rest as [|c [|d rest]]; simpl; intros H;
    [now left | | discriminate].
  right. apply Ascii.eqb_eq in H. now subst.
Qed.

(** A literal run followed by [$] matches at a position exactly when the
    remaining text is the run, or the run and one final line feed. *)
Lemma match_here_lits_dollar (lit rest : string) (n : nat) :
  Re.match_here (lits lit ++ [Re.Dollar])%list rest = Some n ->
  (rest = lit \/ rest = lit ++ nl) /\ n = String.length lit.
Proof.
  revert rest n. induction lit as [|c lit IH]; intros rest n; simpl.
  - destruct (Re.at_dollar rest) eqn:E; [| discriminate].
    intros [= <-]. split; [now apply at_dollar_inv | reflexivity].
  - destruct rest as [|d rest]; [discriminate |].
    destruct (Ascii.eqb_spec c d) as [<-|]; [| discriminate].
    destruct (Re.match_here (lits lit ++ [Re.Dollar])%list rest) as [k|] eqn:E;
      [| discriminate].
    simpl. intros [= <-]. destruct (IH _ _ E) as [[-> | ->] ->]; auto.
Qed.

Lemma match_here_pyc_inv (rest : string) (n : nat) :
  Re.match_here pyc_pattern rest = Some n ->
  rest = ".pyc" \/ rest = ".pyc" ++ nl.
Proof.
  intros H. exact (proj1 (match_here_lits_dollar ".pyc" rest H)).
Qed.

Lemma match_here_pyc_none (rest : string) :
  rest <> ".pyc" -> rest <> ".pyc" ++ nl ->
  Re.match_here pyc_pattern rest = None.
Proof.
  intros H1 H2. destruct (Re.match_here pyc_pattern rest) as [n|] eqn:E;
    [| reflexivity].
  destruct (match_here_pyc_inv _ E); contradiction.
Qed.

(** Where the pattern does not match, the scan copies one character. *)
Lemma sub_from_copy (p : Re.pattern) (repl : string) (c : ascii) (s : string) :
  Re.match_here p (String c s) = None ->
  Re.sub_from p repl O (String c s) = String c (Re.sub_from p repl O s).
Proof. intros H. cbn [Re.sub_from]. rewrite H. reflexivity. Qed.

Lemma sub_pyc_cons (c : ascii) (s : string) :
  String c s <> ".pyc" -> String c s <> ".pyc" ++ nl ->
  Re.sub pyc_pattern ".py" (String c s)
  = String c (Re.sub pyc_pattern ".py" s).
Proof.
  intros H1 H2. unfold Re.sub. apply sub_from_copy.
  now apply match_here_pyc_none.
Qed.

(** The three cases of the rewrite. *)
Lemma sub_pyc_suffix (stem : string) :
  Re.sub pyc_pattern ".py" (stem ++ ".pyc") = stem ++ ".py".
Proof.
  induction stem as [|c stem IH]; [reflexivity |].
  cbn [append]. rewrite sub_pyc_cons, IH; [reflexivity | by_length |].
  destruct stem; [discriminate | by_length].
Qed.

Lemma sub_pyc_suffix_nl (stem : string) :
  Re.sub pyc_pattern ".py" (stem ++ ".pyc" ++ nl) = stem ++ ".py" ++ nl.
Proof.
  induction stem as [|c stem IH]; [reflexivity |].
  change (String c stem ++ ".pyc" ++ nl)
    with (String c (stem ++ ".pyc" ++ nl)).
  rewrite sub_pyc_cons, IH; [reflexivity | by_length ..].
Qed.

Lemma sub_pyc_other (path : string) :
  Py.endswith path ".pyc" = false ->
  Py.endswith path (".pyc" ++ nl) = false ->
  Re.sub pyc_pattern ".py" path = path.
Proof.
  induction path as [|c path IH]; [reflexivity |].
  intros H1 H2.
  apply endswith_cons_false in H1. destruct H1 as [N1 E1].
  apply endswith_cons_false in H2. destruct H2 as [N2 E2].
  rewrite sub_pyc_cons, IH; auto.
Qed.

Lemma endswith_pyc_nl (stem : string) :
  Py.endswith (stem ++ ".pyc" ++ nl) ".pyc" = false.
Proof.
  induction stem as [|c stem IH]; [reflexivity |].
  change (String c stem ++ ".pyc" ++ nl)
    with (String c (stem ++ ".pyc" ++ nl)).
  cbn [Py.endswith]. rewrite IH, orb_false_r.
  apply String.eqb_neq. by_length.
Qed.

(* ===================================================================== *)
(** ** One run of [visit_file] *)
(* ===================================================================== *)

Lemma format_path_line (p : string) (l : Py.value) :
  Py.format "%s:%s" [Py.Val (Py.Str p); Py.Val l]
  = Ok (p ++ ":" ++ Py.str l).
Proof. cbn. rewrite append_nil_r. reflexivity. Qed.

(** Everything a call does, by cases on what the operating system
    answers for the command. *)
Lemma visit_file_run (self : Sublime) (path : string) (line : Py.value)
    (w : os) :
  let arg := Re.sub pyc_pattern ".py" path ++ ":" ++ Py.str line in
  let cmd := [executable self; arg] in
  let msg := executable self ++ " " ++ arg in
  visit_file self path line w =
  match w cmd with
  | Started p =>
      ([Log msg; Spawn cmd; Wait None],
       if returncode p =? 0
       then Ok tt
       else Raise (CalledProcessError (returncode p) cmd))
  | Failed errno => ([Log msg; Spawn cmd], Raise (OSError errno))
  | Rejected => ([Log msg; Spawn cmd], Raise ValueError)
  end.
Proof.
  intros arg cmd msg. unfold visit_file.
  rewrite format_path_line. fold arg. fold cmd.
  unfold bind, log, emit, Subprocess.check_call, Subprocess.call,
    Subprocess.Popen, try_except, Subprocess.wait, bind, emit, ret.
  change (Py.join " " cmd) with msg.
  destruct (w cmd) as [p | errno |]; cbn; [| reflexivity ..].
  destruct (returncode p =? 0); reflexivity.
Qed.

Lemma visit_file_spawned (self : Sublime) (path : string) (line : Py.value)
    (w : os) :
  spawned (trace (visit_file self path line w))
  = [[executable self; Re.sub pyc_pattern ".py" path ++ ":" ++ Py.str line]].
Proof.
  rewrite visit_file_run. cbv zeta.
  destruct (w _); reflexivity.
Qed.

Lemma visit_file_logged (self : Sublime) (path : string) (line : Py.value)
    (w : os) :
  logged (trace (visit_file self path line w))
  = [executable self ++ " "
       ++ (Re.sub pyc_pattern ".py" path ++ ":" ++ Py.str line)].
Proof.
  rewrite visit_file_run. cbv zeta.
  destruct (w _); reflexivity.
Qed.

(** The model of [wait] does raise when a timeout is given and the
    process outlives it; [visit_file] gives none. *)
Example check_call_timeout :
  Subprocess.check_call ["subl"; "/a/b.py:42"] (Some 2) (exits 0)
  = ([Spawn ["subl"; "/a/b.py:42"]; Wait (Some 2); Kill],
     Raise (TimeoutExpired ["subl"; "/a/b.py:42"] 2)).
Proof. reflexivity. Qed.

Example str_examples :
  Py.str (Py.Int 42) = "42" /\ Py.str (Py.Int 0) = "0"
  /\ Py.str (Py.Int (-7)) = "-7" /\ Py.str Py.None_ = "None".
Proof. repeat split. Qed.

(* ===================================================================== *)
(** ** The rewrite of the path *)
(* ===================================================================== *)

(** C1, as the spec states it, fails: the path ["b.pyc\n"] does not end
    in [".pyc"], and yet the command holds ["b.py\n"], not the path the
    caller supplied. *)
Lemma visit_file_newline_path_rewritten :
  Py.endswith ("b.pyc" ++ nl) ".pyc" = false
  /\ spawned (trace (visit_file subl ("b.pyc" ++ nl) (Py.Int 1) (exits 0)))
     = [["subl"; ("b.py" ++ nl) ++ ":1"]]
  /\ spawned (trace (visit_file subl ("b.pyc" ++ nl) (Py.Int 1) (exits 0)))
     <> [["subl"; ("b.pyc" ++ nl) ++ ":1"]].
Proof. repeat split. discriminate. Qed.

(** C1, amended: a path ending in [".pyc"] enters the command with that
    suffix replaced by [".py"]; a path that ends neither in [".pyc"] nor
    in [".pyc"] followed by one line feed enters the command unchanged. *)
Theorem visit_file_path_normalization (self : Sublime) (path : string)
    (line : Py.value) (w : os) :
  (forall stem, path = stem ++ ".pyc" ->
     spawned (trace (visit_file self path line w))
     = [[executable self; (stem ++ ".py") ++ ":" ++ Py.str line]])
  /\ (Py.endswith path ".pyc" = false ->
      Py.endswith path (".pyc" ++ nl) = false ->
      spawned (trace (visit_file self path line w))
      = [[executable self; path ++ ":" ++ Py.str line]]).
Proof.
  rewrite visit_file_spawned. split.
  - intros stem ->. now rewrite sub_pyc_suffix.
  - intros H1 H2. now rewrite sub_pyc_other.
Qed.

Lemma visit_file_path_normalization_witness :
  spawned (trace (visit_file subl "/a/b.pyc" (Py.Int 42) (exits 0)))
  = [["subl"; "/a/b.py:42"]]
  /\ spawned (trace (visit_file subl "/a/b.txt" (Py.Int 1) (exits 0)))
     = [["subl"; "/a/b.txt:1"]].
Proof.
  split.
  - exact (proj1 (visit_file_path_normalization subl "/a/b.pyc" (Py.Int 42)
                    (exits 0)) "/a/b" eq_refl).
  - exact (proj2 (visit_file_path_normalization subl "/a/b.txt" (Py.Int 1)
                    (exits 0)) eq_refl eq_refl).
Defined.

(** C10: a path that ends in [".pyc"] and one line feed does not end in
    [".pyc"], and is rewritten all the same: the command holds the stem,
    [".py"] and the line feed. *)
Theorem visit_file_rewrites_before_final_newline (self : Sublime)
    (stem : string) (line : Py.value) (w : os) :
  Py.endswith (stem ++ ".pyc" ++ nl) ".pyc" = false
  /\ spawned (trace (visit_file self (stem ++ ".pyc" ++ nl) line w))
     = [[executable self; (stem ++ ".py" ++ nl) ++ ":" ++ Py.str line]].
Proof.
  split; [apply endswith_pyc_nl |].
  now rewrite visit_file_spawned, sub_pyc_suffix_nl.
Qed.

(* ===================================================================== *)
(** ** The command *)
(* ===================================================================== *)

(** C2: the argument vector handed to [subprocess.check_call] is the
    two-element list of the executable and the rewritten path, a colon
    and [str(line)]; nothing else is spawned. *)
Theorem visit_file_argument_vector (self : Sublime) (path : string)
    (line : Py.value) (w : os) :
  spawned (trace (visit_file self path line w))
  = [[executable self; Re.sub pyc_pattern ".py" path ++ ":" ++ Py.str line]].
Proof. apply visit_file_spawned. Qed.

(** C6: the two examples of the spec, whatever the editor then does. *)
Theorem visit_file_examples (w : os) :
  spawned (trace (visit_file subl "/a/b.pyc" (Py.Int 42) w))
  = [["subl"; "/a/b.py:42"]]
  /\ spawned (trace (visit_file subl "/a/b.txt" (Py.Int 1) w))
     = [["subl"; "/a/b.txt:1"]].
Proof. split; rewrite visit_file_spawned; reflexivity. Qed.

(** C5: one log line per call, holding the elements of the command
    joined by single spaces, and emitted before the process is
    requested: the trace starts with the log line, the spawn follows,
    and nothing is logged after it. *)
Theorem visit_file_logs_command_first (self : Sublime) (path : string)
    (line : Py.value) (w : os) :
  let arg := Re.sub pyc_pattern ".py" path ++ ":" ++ Py.str line in
  logged (trace (visit_file self path line w))
  = [executable self ++ " " ++ arg]
  /\ exists rest,
       trace (visit_file self path line w)
       = Log (Py.join " " [executable self; arg])
           :: Spawn [executable self; arg] :: rest
       /\ logged rest = [] /\ spawned rest = [].
Proof.
  intros arg. split; [apply visit_file_logged |].
  rewrite visit_file_run. cbv zeta. fold arg.
  destruct (w _); eexists; repeat split.
Qed.

(** C9: the argument vector and the logged string are functions of the
    executable, the path and the line alone: two calls that agree on
    these produce the same ones, whatever the editor objects and the
    operating systems are otherwise. *)
Theorem visit_file_command_deterministic (self1 self2 : Sublime)
    (path : string) (line : Py.value) (w1 w2 : os) :
  executable self1 = executable self2 ->
  spawned (trace (visit_file self1 path line w1))
  = spawned (trace (visit_file self2 path line w2))
  /\ logged (trace (visit_file self1 path line w1))
     = logged (trace (visit_file self2 path line w2)).
Proof.
  intros E. rewrite !visit_file_spawned, !visit_file_logged, E. now split.
Qed.

Lemma visit_file_command_deterministic_witness :
  spawned (trace (visit_file subl "/a/b.pyc" (Py.Int 42) (exits 0)))
  = spawned (trace (visit_file subl "/a/b.pyc" (Py.Int 42) enoent))
  /\ logged (trace (visit_file subl "/a/b.pyc" (Py.Int 42) (exits 0)))
     = logged (trace (visit_file subl "/a/b.pyc" (Py.Int 42) enoent)).
Proof.
  exact (visit_file_command_deterministic subl subl "/a/b.pyc" (Py.Int 42)
           (exits 0) enoent eq_refl).
Defined.

(* ===================================================================== *)
(** ** The exit status *)
(* ===================================================================== *)

(** C3: when the editor process exits with a status other than zero,
    the call raises [CalledProcessError] with that status, and the
    exception is the outcome of [visit_file] itself. *)
Theorem visit_file_nonzero_exit_raises (self : Sublime) (path : string)
    (line : Py.value) (w : os) (p : process) :
  let cmd :=
    [executable self; Re.sub pyc_pattern ".py" path ++ ":" ++ Py.str line] in
  w cmd = Started p ->
  returncode p <> 0 ->
  outcome (visit_file self path line w)
  = Raise (CalledProcessError (returncode p) cmd).
Proof.
  intros cmd Hw Hne. rewrite visit_file_run. cbv zeta. fold cmd.
  rewrite Hw. apply Z.eqb_neq in Hne. cbn. now rewrite Hne.
Qed.

Lemma visit_file_nonzero_exit_raises_witness :
  outcome (visit_file subl "/a/b.pyc" (Py.Int 42) (exits 7))
  = Raise (CalledProcessError 7 ["subl"; "/a/b.py:42"]).
Proof.
  apply (visit_file_nonzero_exit_raises subl "/a/b.pyc" (Py.Int 42)
           (exits 7) (p := Process 3 7)); [reflexivity | discriminate].
Defined.

(** C4: when the editor process exits with status zero, the call
    returns. *)
Theorem visit_file_zero_exit_returns (self : Sublime) (path : string)
    (line : Py.value) (w : os) (p : process) :
  w [executable self; Re.sub pyc_pattern ".py" path ++ ":" ++ Py.str line]
  = Started p ->
  returncode p = 0 ->
  outcome (visit_file self path line w) = Ok tt.
Proof.
  intros Hw Hz. rewrite visit_file_run. cbv zeta.
  rewrite Hw, Hz. reflexivity.
Qed.

Lemma visit_file_zero_exit_returns_witness :
  outcome (visit_file subl "/a/b.txt" (Py.Int 1) (exits 0)) = Ok tt.
Proof.
  apply (visit_file_zero_exit_returns subl "/a/b.txt" (Py.Int 1) (exits 0)
           (p := Process 3 0)); reflexivity.
Defined.

(** C8: every call requests the process once, never twice; when it
    starts, the call waits for its exit with no timeout and ends as the
    exit status says, however long the process lives; no call waits
    with a timeout, kills the process or raises [TimeoutExpired]. *)
Theorem visit_file_spawns_once_and_waits (self : Sublime) (path : string)
    (line : Py.value) (w : os) :
  let arg := Re.sub pyc_pattern ".py" path ++ ":" ++ Py.str line in
  let cmd := [executable self; arg] in
  let t := trace (visit_file self path line w) in
  spawned t = [cmd]
  /\ Forall (fun timeout => timeout = None) (timeouts t)
  /\ ~ In Kill t
  /\ (forall c timeout,
        outcome (visit_file self path line w)
        <> Raise (TimeoutExpired c timeout))
  /\ (forall p, w cmd = Started p ->
        t = [Log (executable self ++ " " ++ arg); Spawn cmd; Wait None]
        /\ outcome (visit_file self path line w)
           = if returncode p =? 0
             then Ok tt
             else Raise (CalledProcessError (returncode p) cmd)).
Proof.
  intros arg cmd t. subst t. split; [apply visit_file_spawned |].
  rewrite visit_file_run. cbv zeta. fold arg. fold cmd.
  destruct (w cmd) as [p | errno |]; cbn.
  - repeat split.
    + repeat constructor.
    + intros [H | [H | [H | []]]]; discriminate.
    + intros c timeout. destruct (returncode p =? 0); discriminate.
    + now injection H as <-.
  - repeat split.
    + constructor.
    + intros [H | [H | []]]; discriminate.
    + discriminate.
    + discriminate.
    + discriminate.
  - repeat split.
    + constructor.
    + intros [H | [H | []]]; discriminate.
    + discriminate.
    + discriminate.
    + discriminate.
Qed.

Lemma visit_file_spawns_once_and_waits_witness :
  trace (visit_file subl "/a/b.pyc" (Py.Int 42) (exits 7))
  = [Log "subl /a/b.py:42"; Spawn ["subl"; "/a/b.py:42"]; Wait None]
  /\ outcome (visit_file subl "/a/b.pyc" (Py.Int 42) (exits 7))
     = Raise (CalledProcessError 7 ["subl"; "/a/b.py:42"]).
Proof.
  exact (proj2 (proj2 (proj2 (proj2
    (visit_file_spawns_once_and_waits subl "/a/b.pyc" (Py.Int 42)
       (exits 7))))) (Process 3 7) eq_refl).
Defined.

(* ===================================================================== *)
(** ** More on the rewrite of the path *)
(* ===================================================================== *)

Ltac cons_append :=
  match goal with
  | |- context [String ?c ?s ++ ?t] =>
      change (String c s ++ t) with (String c (s ++ t))
  end.

(** Strings that differ in length, or at a character. *)
Ltac differ := first [discriminate | by_length].

(** What the rewrite leaves ends neither in [".pyc"] nor in [".pyc"] and
    a line feed. *)
Lemma endswith_py (stem suffix tail : string) :
  Py.endswith tail suffix = false ->
  (forall c, String c tail <> suffix) ->
  (forall c d stem', String c (String d (stem' ++ tail)) <> suffix) ->
  Py.endswith (stem ++ tail) suffix = false.
Proof.
  intros Hbase H1 H2. induction stem as [|c stem IH]; [exact Hbase |].
  cons_append. cbn [Py.endswith]. rewrite IH, orb_false_r.
  apply String.eqb_neq. destruct stem as [|d stem]; [apply H1 | apply H2].
Qed.

Lemma rewritten_pyc_settled (stem : string) :
  Py.endswith (stem ++ ".py") ".pyc" = false
  /\ Py.endswith (stem ++ ".py") (".pyc" ++ nl) = false.
Proof.
  split; apply endswith_py; try reflexivity; intros; try differ.
  destruct stem'; differ.
Qed.

Lemma rewritten_pyc_nl_settled (stem : string) :
  Py.endswith (stem ++ ".py" ++ nl) ".pyc" = false
  /\ Py.endswith (stem ++ ".py" ++ nl) (".pyc" ++ nl) = false.
Proof.
  split; apply endswith_py; try reflexivity; intros; differ.
Qed.

(** The three shapes of a path and what the rewrite makes of each. *)
Lemma sub_pyc_cases (path : string) :
  (exists stem, path = stem ++ ".pyc"
                /\ Re.sub pyc_pattern ".py" path = stem ++ ".py")
  \/ (exists stem, path = stem ++ ".pyc" ++ nl
                   /\ Re.sub pyc_pattern ".py" path = stem ++ ".py" ++ nl)
  \/ (Py.endswith path ".pyc" = false
      /\ Py.endswith path (".pyc" ++ nl) = false
      /\ Re.sub pyc_pattern ".py" path = path).
Proof.
  destruct (Py.endswith path ".pyc") eqn:E1.
  - apply endswith_spec in E1. destruct E1 as [stem ->].
    left. exists stem. split; [reflexivity | apply sub_pyc_suffix].
  - destruct (Py.endswith path (".pyc" ++ nl)) eqn:E2.
    + apply endswith_spec in E2. destruct E2 as [stem ->].
      right. left. exists stem. split; [reflexivity | apply sub_pyc_suffix_nl].
    + right. right. repeat split. now apply sub_pyc_other.
Qed.

(** An argument vector with the zero character in it is rejected in
    every environment. *)
Lemma run_has_nul (w : os) (argv : list string) :
  existsb Py.has_nul argv = true -> w argv = Rejected.
Proof. intros H. unfold run. now rewrite H. Qed.

Lemma has_nul_append (s t : string) :
  Py.has_nul (s ++ t) = Py.has_nul s || Py.has_nul t.
Proof.
  induction s as [|c s IH]; [reflexivity |].
  cbn [append Py.has_nul]. now rewrite IH, orb_assoc.
Qed.

(** The rewrite neither brings in nor takes out a zero character. *)
Lemma sub_pyc_has_nul (path : string) :
  Py.has_nul (Re.sub pyc_pattern ".py" path) = Py.has_nul path.
Proof.
  destruct (sub_pyc_cases path)
    as [(stem & -> & ->) | [(stem & -> & ->) | (_ & _ & ->)]];
    rewrite ?has_nul_append; reflexivity.
Qed.

Lemma sub_pyc_settled (path : string) :
  Py.endswith (Re.sub pyc_pattern ".py" path) ".pyc" = false
  /\ Py.endswith (Re.sub pyc_pattern ".py" path) (".pyc" ++ nl) = false.
Proof.
  destruct (sub_pyc_cases path)
    as [(stem & -> & ->) | [(stem & -> & ->) | (E1 & E2 & ->)]].
  - apply rewritten_pyc_settled.
  - apply rewritten_pyc_nl_settled.
  - now split.
Qed.

Lemma sub_pyc_idempotent (path : string) :
  Re.sub pyc_pattern ".py" (Re.sub pyc_pattern ".py" path)
  = Re.sub pyc_pattern ".py" path.
Proof.
  destruct (sub_pyc_settled path) as [E1 E2]. now apply sub_pyc_other.
Qed.

(** Appending the same text to two strings keeps them apart. *)
Lemma append_cancel_r (s s' t : string) : s ++ t = s' ++ t -> s = s'.
Proof.
  revert s'. induction s as [|c s IH]; intros [|c' s'] H.
  - reflexivity.
  - exfalso. revert H. cons_append. by_length.
  - exfalso. revert H. cons_append. by_length.
  - revert H. repeat cons_append. intros [= -> H]. now rewrite (IH _ H).
Qed.

Lemma sub_pyc_changes (stem : string) :
  stem ++ ".py" <> stem ++ ".pyc"
  /\ stem ++ ".py" ++ nl <> stem ++ ".pyc" ++ nl.
Proof. split; by_length. Qed.

(* ===================================================================== *)
(** ** Decimal numerals and the colon *)
(* ===================================================================== *)

Lemma colon_in_append (p d : string) :
  In ":"%char (list_ascii_of_string (p ++ ":" ++ d)).
Proof. induction p as [|c p IH]; simpl; auto. Qed.

(** A text with no colon can be split off after the last colon in one
    way only. *)
Lemma split_at_last_colon (p1 p2 d1 d2 : string) :
  ~ In ":"%char (list_ascii_of_string d1) ->
  ~ In ":"%char (list_ascii_of_string d2) ->
  p1 ++ ":" ++ d1 = p2 ++ ":" ++ d2 ->
  p1 = p2 /\ d1 = d2.
Proof.
  intros N1 N2. revert p2.
  induction p1 as [|c p1 IH]; intros [|c' p2]; cbn [append]; intros H.
  - injection H as <-. now split.
  - injection H as <- ->. destruct N1. apply colon_in_append.
  - injection H as -> <-. destruct N2. apply colon_in_append.
  - injection H as <- H. destruct (IH _ H) as [-> ->]. now split.
Qed.

Lemma uint_no_colon (u : Decimal.uint) :
  ~ In ":"%char (list_ascii_of_string (NilEmpty.string_of_uint u)).
Proof.
  induction u; simpl; try tauto; intros [H | H]; try discriminate; tauto.
Qed.

Lemma nilzero_uint_no_colon (u : Decimal.uint) :
  ~ In ":"%char (list_ascii_of_string (NilZero.string_of_uint u)).
Proof.
  destruct u; try apply uint_no_colon.
  simpl. intros [H | []]. discriminate.
Qed.

Lemma str_of_int_no_colon (z : Z) :
  ~ In ":"%char (list_ascii_of_string (Py.str_of_int z)).
Proof.
  unfold Py.str_of_int, NilZero.string_of_int.
  destruct (Z.to_int z) as [u | u]; [apply nilzero_uint_no_colon |].
  cbn [list_ascii_of_string]. intros [H | H]; [discriminate |].
  exact (nilzero_uint_no_colon _ H).
Qed.

(** [str] on integers loses nothing: [int(str(z)) == z]. *)
Lemma str_of_int_inj (z1 z2 : Z) :
  Py.str_of_int z1 = Py.str_of_int z2 -> z1 = z2.
Proof.
  unfold Py.str_of_int. intros H.
  assert (nonnil : forall z, Z.to_int z <> Decimal.Pos Decimal.Nil
                             /\ Z.to_int z <> Decimal.Neg Decimal.Nil).
  { intros [|p|p]; simpl; split; try discriminate;
      intros [= E]; exact (DecimalPos.Unsigned.to_uint_nonnil _ E). }
  apply (f_equal NilZero.int_of_string) in H.
  rewrite !NilZero.isi in H by apply nonnil.
  injection H as H. apply (f_equal Z.of_int) in H.
  now rewrite !DecimalZ.of_to in H.
Qed.

(* ===================================================================== *)
(** ** Validation and the errors of a call *)
(* ===================================================================== *)

(** C7, as the spec states it, fails in three ways.  When the editor
    cannot be started the call raises [OSError], which comes from no
    exit status.  When the path holds the zero character the call raises
    [ValueError] and no process runs, though the editor would have
    exited with status zero.  When [str(line)] raises, the call raises
    that error before the command exists: nothing is logged and no
    process is requested. *)
Lemma visit_file_errors_not_from_exit_status :
  (outcome (visit_file subl "/a/b.txt" (Py.Int 1) enoent) = Raise (OSError 2)
   /\ forall code cmd,
        outcome (visit_file subl "/a/b.txt" (Py.Int 1) enoent)
        <> Raise (CalledProcessError code cmd))
  /\ visit_file subl ("/a/" ++ String Py.NUL "b.txt") (Py.Int 1) (exits 0)
     = ([Log ("subl /a/" ++ String Py.NUL "b.txt:1");
         Spawn ["subl"; "/a/" ++ String Py.NUL "b.txt:1"]],
        Raise ValueError)
  /\ visit_file subl "/a/b.txt" (Py.Unprintable (OtherError "RuntimeError"))
       (exits 0)
     = ([], Raise (OtherError "RuntimeError")).
Proof.
  split; [split; [reflexivity | discriminate] |].
  split; reflexivity.
Qed.

(** C7, amended: for every path and every line object, the call checks
    nothing itself.  When [str(line)] raises, that error leaves the call
    before anything is logged or run.  Otherwise the call logs the
    command and hands it to [subprocess.check_call], and an error it
    raises is raised there: [CalledProcessError] for the non-zero exit
    status of the process, [OSError] for a process that could not be
    started, or [ValueError] for a command that was rejected, as every
    command with the zero character in the path is. *)
Theorem visit_file_no_local_validation (self : Sublime) (path : string)
    (line : Py.object) (w : os) :
  (forall e, Py.str_obj line = Raise e ->
     visit_file self path line w = ([], Raise e))
  /\ (forall text, Py.str_obj line = Ok text ->
      let arg := Re.sub pyc_pattern ".py" path ++ ":" ++ text in
      let cmd := [executable self; arg] in
      (exists rest,
         trace (visit_file self path line w)
         = Log (executable self ++ " " ++ arg) :: Spawn cmd :: rest)
      /\ (forall e, outcome (visit_file self path line w) = Raise e ->
            (exists p, w cmd = Started p /\ returncode p <> 0
                       /\ e = CalledProcessError (returncode p) cmd)
            \/ (exists errno, w cmd = Failed errno /\ e = OSError errno)
            \/ (w cmd = Rejected /\ e = ValueError))
      /\ (Py.has_nul path = true ->
          outcome (visit_file self path line w) = Raise ValueError)).
Proof.
  split.
  - destruct line as [v | e']; cbn [Py.str_obj]; [discriminate |].
    intros e [= <-]. reflexivity.
  - destruct line as [v | e']; intros text H; cbn in H; [| discriminate].
    injection H as <-. intros arg cmd.
    rewrite visit_file_run. cbv zeta. fold arg. fold cmd.
    split; [| split].
    + destruct (w cmd); eexists; reflexivity.
    + destruct (w cmd) as [p | errno |] eqn:Hw; cbn; intros e.
      * destruct (Z.eqb_spec (returncode p) 0) as [Hz | Hnz];
          [discriminate |].
        intros [= <-]. left. exists p. auto.
      * intros [= <-]. right. left. exists errno. auto.
      * intros [= <-]. right. right. auto.
    + intros Hnul. rewrite (run_has_nul w cmd); [reflexivity |].
      subst cmd arg. cbn [existsb].
      rewrite !has_nul_append, sub_pyc_has_nul, Hnul.
      now rewrite !orb_true_r.
Qed.

Lemma visit_file_no_local_validation_witness :
  visit_file subl "/a/b.txt" (Py.Unprintable TypeError) (exits 0)
  = ([], Raise TypeError)
  /\ ((exists p, exits 7 ["subl"; "/a/b.txt:-1"] = Started p
                 /\ returncode p <> 0
                 /\ CalledProcessError 7 ["subl"; "/a/b.txt:-1"]
                    = CalledProcessError (returncode p)
                        ["subl"; "/a/b.txt:-1"])
      \/ (exists errno, exits 7 ["subl"; "/a/b.txt:-1"] = Failed errno
                        /\ CalledProcessError 7 ["subl"; "/a/b.txt:-1"]
                           = OSError errno)
      \/ (exits 7 ["subl"; "/a/b.txt:-1"] = Rejected
          /\ CalledProcessError 7 ["subl"; "/a/b.txt:-1"] = ValueError))
  /\ outcome (visit_file subl (String Py.NUL "/a/b.txt") (Py.Int (-1))
                (exits 7))
     = Raise ValueError.
Proof.
  split; [| split].
  - exact (proj1 (visit_file_no_local_validation subl "/a/b.txt"
                    (Py.Unprintable TypeError) (exits 0))
             TypeError eq_refl).
  - exact (proj1 (proj2 (proj2 (visit_file_no_local_validation subl
                                  "/a/b.txt" (Py.Int (-1)) (exits 7))
                           "-1" eq_refl))
             (CalledProcessError 7 ["subl"; "/a/b.txt:-1"]) eq_refl).
  - exact (proj2 (proj2 (proj2 (visit_file_no_local_validation subl
                                  (String Py.NUL "/a/b.txt") (Py.Int (-1))
                                  (exits 7))
                           "-1" eq_refl))
             eq_refl).
Defined.

(* ===================================================================== *)
(** ** Further properties of [visit_file] *)
(* ===================================================================== *)

(** Two paths with the same rewrite are visited in the same way. *)
Lemma visit_file_same_target (self : Sublime) (p1 p2 : string)
    (line : Py.value) (w : os) :
  Re.sub pyc_pattern ".py" p1 = Re.sub pyc_pattern ".py" p2 ->
  visit_file self p1 line w = visit_file self p2 line w.
Proof. intros E. rewrite !visit_file_run. cbv zeta. now rewrite E. Qed.

(** X1: the path that enters the command never ends in [".pyc"], nor in
    [".pyc"] and a line feed: no call asks the editor for a file with
    the bytecode suffix. *)
Theorem visit_file_never_opens_pyc (self : Sublime) (path : string)
    (line : Py.value) (w : os) :
  let target := Re.sub pyc_pattern ".py" path in
  spawned (trace (visit_file self path line w))
  = [[executable self; target ++ ":" ++ Py.str line]]
  /\ Py.endswith target ".pyc" = false
  /\ Py.endswith target (".pyc" ++ nl) = false.
Proof.
  intros target. split; [apply visit_file_spawned | apply sub_pyc_settled].
Qed.

(** X2: a call with the bytecode path [stem.pyc] and a call with the
    source path [stem.py] are the same run: same log line, same
    command, same outcome; likewise with a line feed after either. *)
Theorem visit_file_pyc_same_as_py (self : Sublime) (stem : string)
    (line : Py.value) (w : os) :
  visit_file self (stem ++ ".pyc") line w
  = visit_file self (stem ++ ".py") line w
  /\ visit_file self (stem ++ ".pyc" ++ nl) line w
     = visit_file self (stem ++ ".py" ++ nl) line w.
Proof.
  split; apply visit_file_same_target.
  - rewrite sub_pyc_suffix. symmetry.
    apply sub_pyc_other; apply rewritten_pyc_settled.
  - rewrite sub_pyc_suffix_nl. symmetry.
    apply sub_pyc_other; apply rewritten_pyc_nl_settled.
Qed.

(** X3: the rewrite is idempotent: a call with the path as a first call
    rewrote it is the same run as that first call. *)
Theorem visit_file_rewrite_idempotent (self : Sublime) (path : string)
    (line : Py.value) (w : os) :
  visit_file self (Re.sub pyc_pattern ".py" path) line w
  = visit_file self path line w.
Proof. apply visit_file_same_target, sub_pyc_idempotent. Qed.

(** X4: the command holds the caller's path as it was given exactly
    when that path ends neither in [".pyc"] nor in [".pyc"] and a line
    feed; in both of these cases the command holds another path. *)
Theorem visit_file_path_unchanged_iff (self : Sublime) (path : string)
    (line : Py.value) (w : os) :
  spawned (trace (visit_file self path line w))
  = [[executable self; path ++ ":" ++ Py.str line]]
  <-> Py.endswith path ".pyc" = false
      /\ Py.endswith path (".pyc" ++ nl) = false.
Proof.
  rewrite visit_file_spawned. split.
  - intros [= H]. apply append_cancel_r in H.
    destruct (sub_pyc_cases path)
      as [(stem & -> & E) | [(stem & -> & E) | (E1 & E2 & _)]].
    + rewrite E in H. now destruct (proj1 (sub_pyc_changes stem)).
    + rewrite E in H. now destruct (proj2 (sub_pyc_changes stem)).
    + now split.
  - intros [E1 E2]. now rewrite sub_pyc_other.
Qed.

Lemma visit_file_path_unchanged_iff_witness :
  Py.endswith "/a/b.txt" ".pyc" = false
  /\ Py.endswith "/a/b.txt" (".pyc" ++ nl) = false.
Proof.
  exact (proj1 (visit_file_path_unchanged_iff subl "/a/b.txt" (Py.Int 1)
                  (exits 0)) eq_refl).
Defined.

(** X5: the call returns exactly when the editor process was started
    and exited with status zero; there is no other way to a normal
    return. *)
Theorem visit_file_returns_iff_zero_exit (self : Sublime) (path : string)
    (line : Py.value) (w : os) :
  outcome (visit_file self path line w) = Ok tt
  <-> exists p,
        w [executable self;
           Re.sub pyc_pattern ".py" path ++ ":" ++ Py.str line] = Started p
        /\ returncode p = 0.
Proof.
  rewrite visit_file_run. cbv zeta.
  destruct (w _) as [p | errno |]; cbn.
  - destruct (Z.eqb_spec (returncode p) 0) as [Hz | Hnz]; split.
    + intros _. now exists p.
    + reflexivity.
    + discriminate.
    + intros (q & [= <-] & Hz). contradiction.
  - split; [discriminate |]. intros (q & [=] & _).
  - split; [discriminate |]. intros (q & [=] & _).
Qed.

Lemma visit_file_returns_iff_zero_exit_witness :
  outcome (visit_file subl "/a/b.txt" (Py.Int 1) (exits 0)) = Ok tt.
Proof.
  apply (proj2 (visit_file_returns_iff_zero_exit subl "/a/b.txt" (Py.Int 1)
                  (exits 0))).
  exists (Process 3 0). split; reflexivity.
Defined.

(** X6: when the operating system cannot start the editor, the call has
    logged the command and asked for the process, waits for nothing and
    raises the [OSError] with the system's error number. *)
Theorem visit_file_start_failure (self : Sublime) (path : string)
    (line : Py.value) (w : os) (errno : Z) :
  let arg := Re.sub pyc_pattern ".py" path ++ ":" ++ Py.str line in
  let cmd := [executable self; arg] in
  w cmd = Failed errno ->
  visit_file self path line w
  = ([Log (executable self ++ " " ++ arg); Spawn cmd], Raise (OSError errno)).
Proof.
  intros arg cmd Hw. rewrite visit_file_run. cbv zeta. fold arg. fold cmd.
  now rewrite Hw.
Qed.

Lemma visit_file_start_failure_witness :
  visit_file subl "/a/b.pyc" (Py.Int 42) enoent
  = ([Log "subl /a/b.py:42"; Spawn ["subl"; "/a/b.py:42"]],
     Raise (OSError 2)).
Proof.
  apply (visit_file_start_failure subl "/a/b.pyc" (Py.Int 42) enoent
           (errno := 2)).
  reflexivity.
Defined.

(** X7: with integer line numbers the command tells the target: two
    calls that build the same command have the same executable, the same
    rewritten path and the same line, also when the paths hold colons. *)
Theorem visit_file_int_line_injective (self1 self2 : Sublime)
    (path1 path2 : string) (z1 z2 : Z) (w1 w2 : os) :
  spawned (trace (visit_file self1 path1 (Py.Int z1) w1))
  = spawned (trace (visit_file self2 path2 (Py.Int z2) w2)) ->
  executable self1 = executable self2
  /\ Re.sub pyc_pattern ".py" path1 = Re.sub pyc_pattern ".py" path2
  /\ z1 = z2.
Proof.
  rewrite !visit_file_spawned. intros [= Hexe Harg].
  split; [exact Hexe |].
  apply split_at_last_colon in Harg; try apply str_of_int_no_colon.
  destruct Harg as [Hp Hz]. split; [exact Hp |].
  now apply str_of_int_inj.
Qed.

Lemma visit_file_int_line_injective_witness :
  executable subl = executable subl
  /\ Re.sub pyc_pattern ".py" "/a:1/b.pyc" = Re.sub pyc_pattern ".py" "/a:1/b.py"
  /\ 42 = 42.
Proof.
  exact (visit_file_int_line_injective subl subl "/a:1/b.pyc" "/a:1/b.py"
           42 42 (exits 0) enoent eq_refl).
Defined.
